(** * AuthService: registration and authentication against a graph store

    Shallow embedding of [src/services/auth.service.js].  The service is a
    thin layer over three external collaborators: the Neo4j driver
    (sessions, read and write transactions), bcrypt ([hash], [compare]) and
    jsonwebtoken ([jwt.sign]).  Every call to a collaborator is an [Await]
    node of a small free monad; an environment ([handler]) answers the calls
    and the interpreter [run] records them in a trace, so that statements
    about "every exit path" quantify over every environment. *)

From stdpp Require Import gmap strings list fin_maps.


(** ** JavaScript data *)

(** The primitive values that occur as properties of nodes, of query
    parameters and of token claims. *)
Inductive value : Type :=
| VUndefined
| VNull
| VBool (b : bool)
| VNum (n : Z)
| VStr (s : string).

#[global] Instance value_eq_dec : EqDecision value.
Proof. solve_decision. Defined.

(** A plain object: a finite map from property names to values. *)
Abbreviation obj := (gmap string value).

(** Property access [o.k]; an absent property reads as [undefined]. *)
Definition prop (o : obj) (k : string) : value := default VUndefined (o !! k).

(** ** The Neo4j driver's data *)

Definition Session := nat.

Record Node : Type := { properties : obj }.

(** One row of a result.  Both statements of the service end in [RETURN u],
    so a row exposes the single field [u]; [first.get('u')] is [u first]. *)
Record Row : Type := { u : Node }.

Record Result : Type := { records : list Row }.

(** An error object raised by a collaborator, with its [code] property
    ([undefined] when the error has none). *)
Record Error : Type := { code : value; message : string }.

#[global] Instance Error_eq_dec : EqDecision Error.
Proof. solve_decision. Defined.

(** The two Cypher statements of the service.

    [CreateUser]:
      CREATE (u:User { userId: randomUuid(), email: $email,
                       password: $encrypted, name: $name }) RETURN u

    [MatchUserByEmail]:
      MATCH (u:User {email: $email}) RETURN u *)
Inductive Cypher : Type := CreateUser | MatchUserByEmail.

#[global] Instance Cypher_eq_dec : EqDecision Cypher.
Proof. solve_decision. Defined.

(** ** Calls to the collaborators *)

Inductive call : Type :=
| hash (data : string) (saltRounds : value)
| driver_session
| executeWrite (s : Session) (query : Cypher) (params : obj)
| executeRead (s : Session) (query : Cypher) (params : obj)
| close (s : Session)
| compare (data : string) (encrypted : value)
| jwt_sign (payload : obj) (secret : string).

#[global] Instance call_eq_dec : EqDecision call.
Proof. solve_decision. Defined.

(** The type of what each call returns. *)
Definition ret (c : call) : Type :=
  match c with
  | hash _ _ => string
  | driver_session => Session
  | executeWrite _ _ _ => Result
  | executeRead _ _ _ => Result
  | close _ => unit
  | compare _ _ => bool
  | jwt_sign _ _ => string
  end.

(** What a call comes back with: a value, or a raised error (a rejected
    promise, or an exception of a synchronous call). *)
Inductive answer (X : Type) : Type :=
| Returned (x : X)
| Rejected (e : Error).
Arguments Returned {X} x.
Arguments Rejected {X} e.

(** ** Thrown values *)

(** Modelled from the spec: the class [ValidationError] of
    [src/errors/validation.error.js] is not part of the sources; the spec
    describes it as an error "carrying a field-level message and a
    human-readable summary", which is the constructor's two arguments. *)
Inductive exn : Type :=
| Raised (e : Error)
| TypeError (msg : string)
| ValidationError (msg : string) (details : obj).

(** [e.code] as the [catch] clause of [register] reads it.  Only errors
    thrown inside the [try] block reach that clause: errors of the
    collaborators, and the runtime's [TypeError], which has no [code]. *)
Definition code_of (e : exn) : value :=
  match e with
  | Raised err => code err
  | TypeError _ => VUndefined
  | ValidationError _ _ => VUndefined
  end.

(** ** Programs *)

Inductive prog (R : Type) : Type :=
| Ret (r : R)
| Throw (e : exn)
| Await (c : call) (k : answer (ret c) → prog R).
Arguments Ret {R} r.
Arguments Throw {R} e.
Arguments Await {R} c k.

Fixpoint bind {A B : Type} (p : prog A) (f : A → prog B) : prog B :=
  match p with
  | Ret a => f a
  | Throw e => Throw e
  | Await c k => Await c (λ a, bind (k a) f)
  end.

#[global] Instance prog_ret : MRet prog := @Ret.
#[global] Instance prog_bind : MBind prog := λ A B f p, bind p f.

(** [await c]: the value of the call, or its error thrown. *)
Definition await (c : call) : prog (ret c) :=
  Await c (λ a, match a with
                | Returned x => Ret x
                | Rejected e => Throw (Raised e)
                end).

(** [try { p } catch (e) { h e }] *)
Fixpoint try_catch {R : Type} (p : prog R) (h : exn → prog R) : prog R :=
  match p with
  | Ret r => Ret r
  | Throw e => h e
  | Await c k => Await c (λ a, try_catch (k a) h)
  end.

(** [try { p } finally { q }]: [q] runs on both exits of [p]; an error of
    [q] replaces the completion of [p]. *)
Fixpoint try_finally {R : Type} (p : prog R) (q : prog unit) : prog R :=
  match p with
  | Ret r => bind q (λ _, Ret r)
  | Throw e => bind q (λ _, Throw e)
  | Await c k => Await c (λ a, try_finally (k a) q)
  end.

(** ** Environments and runs *)

Inductive outcome (R : Type) : Type :=
| Ok (r : R)
| Err (e : exn).
Arguments Ok {R} r.
Arguments Err {R} e.

(** One entry of a trace: a call and what it came back with. *)
Inductive event : Type :=
| Ev (c : call) (a : answer (ret c)).

(** An environment answers every call, threading its own state. *)
Definition handler (W : Type) : Type := ∀ c : call, W → answer (ret c) * W.

Fixpoint run {W R : Type} (h : handler W) (p : prog R) (w : W)
  : outcome R * list event * W :=
  match p with
  | Ret r => (Ok r, [], w)
  | Throw e => (Err e, [], w)
  | Await c k =>
      let '(a, w1) := h c w in
      let '(o, t, w2) := run h (k a) w1 in
      (o, Ev c a :: t, w2)
  end.

Definition result_of {W R : Type} (x : outcome R * list event * W) : outcome R := x.1.1.
Definition trace_of {W R : Type} (x : outcome R * list event * W) : list event := x.1.2.
Definition world_of {W R : Type} (x : outcome R * list event * W) : W := x.2.

(** *** Observations on traces *)

(** The sessions left open after an event, given those open before it:
    [driver.session()] that returned opens one, [session.close()] releases
    it. *)
Definition track (opened : list Session) (ev : event) : list Session :=
  match ev with
  | Ev c a =>
      match c return answer (ret c) → list Session with
      | driver_session =>
          λ a, match a with Returned s => s :: opened | Rejected _ => opened end
      | close s => λ _, filter (λ s', s' ≠ s) opened
      | _ => λ _, opened
      end a
  end.

(** The sessions a trace leaves open. *)
Definition open_sessions (t : list event) : list Session := foldl track [] t.

Definition is_compare (ev : event) : bool :=
  match ev with
  | Ev (compare _ _) _ => true
  | _ => false
  end.

(** The contract of the token toolkit, for the tokens signed in a trace:
    such a token verifies under the secret it was signed with, and the
    decoded claims read as the payload on each of the payload's properties
    (the toolkit may add claims of its own, such as [iat]). *)
Definition signs_verifiably (verify : string → string → option obj)
    (t : list event) : Prop :=
  ∀ (payload : obj) (secret token : string),
    Ev (jwt_sign payload secret) (Returned token) ∈ t →
    ∃ claims : obj,
      verify token secret = Some claims ∧
      ∀ (k : string) (v : value), payload !! k = Some v → prop claims k = v.

(** The error an event was rejected with, if it was. *)
Definition rejection (ev : event) : option Error :=
  match ev with
  | Ev _ (Rejected e) => Some e
  | Ev _ (Returned _) => None
  end.

(** The code of the store's constraint-violation error. *)
Definition constraint_code : value :=
  VStr "Neo.ClientError.Schema.ConstraintValidationFailed".

(** ** The service *)

Module AuthService.

Section Service.

(** Constants of [src/constants.js] (read from the process environment)
    and the runtime's [parseInt]. *)
Variable JWT_SECRET : string.
Variable SALT_ROUNDS : string.
Variable parseInt : string → value.

(** [userToClaims(user)]:
    const { name, userId } = user; return { sub: userId, userId, name } *)
Definition userToClaims (user : obj) : obj :=
  let name := prop user "name" in
  let userId := prop user "userId" in
  <["name" := name]> (<["userId" := userId]> (<["sub" := userId]> ∅)).

(** [async claimsToUser(claims)]: return { ...claims, userId: claims.sub } *)
Definition claimsToUser (claims : obj) : prog obj :=
  mret (<["userId" := prop claims "sub"]> claims).

(** What [authenticate] resolves to: [false], or the user with a token. *)
Inductive authenticated : Type :=
| JFalse
| JUser (user : obj).

Definition register (email plainPassword name : string) : prog obj :=
  encrypted ← await (hash plainPassword (parseInt SALT_ROUNDS));
  session ← await driver_session;
  try_finally
    (try_catch
       (res ← await (executeWrite session CreateUser
                       (<["name" := VStr name]>
                          (<["encrypted" := VStr encrypted]>
                             (<["email" := VStr email]> ∅))));
        match records res with
        | [] =>
            Throw (TypeError "Cannot read properties of undefined (reading 'get')")
        | first :: _ =>
            let node := u first in
            let safeProperties := delete "password" (properties node) in
            token ← await (jwt_sign (userToClaims safeProperties) JWT_SECRET);
            mret (<["token" := VStr token]> safeProperties)
        end)
       (λ e,
          if decide (code_of e = VStr "Neo.ClientError.Schema.ConstraintValidationFailed")
          then Throw (ValidationError
                        ("An account already exists with the email address " +:+ email)
                        (<["email" := VStr "Email address already taken"]> ∅))
          else Throw e))
    (await (close session)).

Definition authenticate (email unencryptedPassword : string) : prog authenticated :=
  session ← await driver_session;
  res ← await (executeRead session MatchUserByEmail (<["email" := VStr email]> ∅));
  _ ← await (close session);
  match records res with
  | [] => mret JFalse
  | first :: _ =>
      let user := u first in
      let encryptedPassword := prop (properties user) "password" in
      correct ← await (compare unencryptedPassword encryptedPassword);
      if bool_decide (correct = false) then mret JFalse
      else
        let safeProperties := delete "password" (properties user) in
        token ← await (jwt_sign (userToClaims safeProperties) JWT_SECRET);
        mret (JUser (<["token" := VStr token]> safeProperties))
  end.

End Service.

End AuthService.

(** ** A reference environment

    The collaborators as the service's contract with them describes them: a
    graph store that holds [User] nodes in creation order and enforces the
    uniqueness constraint on [email] (the constraint [UserEmailUnique] quoted
    in [register]), a password hash with its comparison, and a token signer.
    No call fails except the write that violates the constraint. *)

Module Reference.

Record Store : Type := {
  nodes : list Node;       (* the User nodes, oldest first *)
  sessions : nat;          (* number of sessions handed out so far *)
}.

Definition has_email (email : value) (n : Node) : bool :=
  bool_decide (prop (properties n) "email" = email).

(** The node built by [CreateUser] from its parameters. *)
Definition new_user (userId : string) (params : obj) : Node :=
  {| properties :=
       <["name" := prop params "name"]>
         (<["password" := prop params "encrypted"]>
            (<["email" := prop params "email"]>
               (<["userId" := VStr userId]> ∅))) |}.

Definition constraint_violation : Error :=
  {| code := VStr "Neo.ClientError.Schema.ConstraintValidationFailed";
     message := "Node already exists with label `User` and property `email`" |}.

Definition access_mode_violation : Error :=
  {| code := VStr "Neo.ClientError.Statement.AccessMode";
     message := "Writing in read access mode not allowed" |}.

Section Environment.

(** bcrypt and jsonwebtoken, and the store's [randomUuid()] as a function
    of the number of nodes created so far. *)
Variable bcrypt_hash : string → value → string.
Variable bcrypt_compare : string → value → bool.
Variable sign : obj → string → string.
Variable randomUuid : nat → string.

Definition create_user (params : obj) (w : Store) : answer Result * Store :=
  if existsb (has_email (prop params "email")) (nodes w)
  then (Rejected constraint_violation, w)
  else
    let n := new_user (randomUuid (length (nodes w))) params in
    (Returned {| records := [ {| u := n |} ] |},
     {| nodes := nodes w ++ [n]; sessions := sessions w |}).

Definition match_user (params : obj) (w : Store) : answer Result * Store :=
  (Returned {| records := map Build_Row
                            (List.filter (has_email (prop params "email")) (nodes w)) |},
   w).

Definition env : handler Store := λ c,
  match c return Store → answer (ret c) * Store with
  | hash data saltRounds => λ w, (Returned (bcrypt_hash data saltRounds), w)
  | driver_session =>
      λ w, (Returned (sessions w),
            {| nodes := nodes w; sessions := S (sessions w) |})
  | executeWrite _ CreateUser params => create_user params
  | executeWrite _ MatchUserByEmail params => match_user params
  | executeRead _ CreateUser _ => λ w, (Rejected access_mode_violation, w)
  | executeRead _ MatchUserByEmail params => match_user params
  | close _ => λ w, (Returned tt, w)
  | compare data encrypted => λ w, (Returned (bcrypt_compare data encrypted), w)
  | jwt_sign payload secret => λ w, (Returned (sign payload secret), w)
  end.

(** The emails registered in a store. *)
Definition registered (email : string) (w : Store) : Prop :=
  existsb (has_email (VStr email)) (nodes w) = true.

End Environment.

End Reference.

(** An environment whose store is unreachable: sessions are handed out, and
    every transaction is rejected. *)
Definition service_unavailable : Error :=
  {| code := VStr "ServiceUnavailable";
     message := "Could not perform discovery. No routing servers available." |}.

Definition unreachable_store : handler unit := λ c,
  match c return unit → answer (ret c) * unit with
  | hash data _ => λ w, (Returned data, w)
  | driver_session => λ w, (Returned 0, w)
  | executeWrite _ _ _ => λ w, (Rejected service_unavailable, w)
  | executeRead _ _ _ => λ w, (Rejected service_unavailable, w)
  | close _ => λ w, (Returned tt, w)
  | compare _ _ => λ w, (Returned false, w)
  | jwt_sign _ _ => λ w, (Returned "", w)
  end.

(** ** Sample data

    A toy toolkit and a store with one registered user, on which the
    statements below are exercised. *)

Module Sample.

Definition bcrypt_hash (data : string) (saltRounds : value) : string :=
  "$2b$10$" +:+ data.

Definition bcrypt_compare (data : string) (encrypted : value) : bool :=
  bool_decide (encrypted = VStr (bcrypt_hash data VUndefined)).

Definition sign (payload : obj) (secret : string) : string :=
  "header." +:+ default "" (match prop payload "sub" with
                             | VStr s => Some s
                             | _ => None
                             end) +:+ "." +:+ secret.

Definition randomUuid (n : nat) : string :=
  match n with
  | 0 => "7f3c9a52-0000-4000-8000-000000000000"
  | _ => "7f3c9a52-0000-4000-8000-000000000001"
  end.

Definition env : handler Reference.Store :=
  Reference.env bcrypt_hash bcrypt_compare sign randomUuid.

Definition empty : Reference.Store := {| Reference.nodes := []; Reference.sessions := 0 |}.

(** The store after [register("a@x.com", "secret123", "Alice")]. *)
Definition alice : Reference.Store :=
  world_of (run env (AuthService.register "s3cr3t" "10" (λ _, VNum 10)
                       "a@x.com" "secret123" "Alice") empty).

(** The claims that the one token of the sample decodes to. *)
Definition verify (token secret : string) : option obj :=
  if decide (token = "header.7f3c9a52-0000-4000-8000-000000000000.s3cr3t" ∧ secret = "s3cr3t")
  then Some (<["iat" := VNum 1516239022]>
               (AuthService.userToClaims
                  (<["name" := VStr "Alice"]>
                     (<["userId" := VStr "7f3c9a52-0000-4000-8000-000000000000"]> ∅))))
  else None.

End Sample.

(** ** Further observations on traces *)

Definition is_hash (ev : event) : bool :=
  match ev with Ev (hash _ _) _ => true | _ => false end.

Definition is_open (ev : event) : bool :=
  match ev with Ev driver_session _ => true | _ => false end.

Definition is_write (ev : event) : bool :=
  match ev with Ev (executeWrite _ _ _) _ => true | _ => false end.

Definition is_read (ev : event) : bool :=
  match ev with Ev (executeRead _ _ _) _ => true | _ => false end.

Definition is_close (ev : event) : bool :=
  match ev with Ev (close _) _ => true | _ => false end.

Definition is_sign (ev : event) : bool :=
  match ev with Ev (jwt_sign _ _) _ => true | _ => false end.

(** How many events of a kind a trace holds. *)
Definition count (kind : event → bool) (t : list event) : nat :=
  length (List.filter kind t).

(** The session a transaction or a [close] was called on. *)
Definition session_of (ev : event) : option Session :=
  match ev with
  | Ev (executeWrite s _ _) _ => Some s
  | Ev (executeRead s _ _) _ => Some s
  | Ev (close s) _ => Some s
  | _ => None
  end.

(** ** Scripted environments

    An environment that answers each kind of call with a fixed answer,
    whatever the arguments. *)
Record Script : Type := {
  on_hash : answer string;
  on_session : answer Session;
  on_write : answer Result;
  on_read : answer Result;
  on_close : answer unit;
  on_compare : answer bool;
  on_sign : answer string;
}.

Definition scripted (sc : Script) : handler unit := λ c,
  match c return unit → answer (ret c) * unit with
  | hash _ _ => λ w, (on_hash sc, w)
  | driver_session => λ w, (on_session sc, w)
  | executeWrite _ _ _ => λ w, (on_write sc, w)
  | executeRead _ _ _ => λ w, (on_read sc, w)
  | close _ => λ w, (on_close sc, w)
  | compare _ _ => λ w, (on_compare sc, w)
  | jwt_sign _ _ => λ w, (on_sign sc, w)
  end.

Module Scripts.

Definition stored_alice : Node :=
  {| properties :=
       <["name" := VStr "Alice"]>
         (<["password" := VStr "$2b$10$secret123"]>
            (<["email" := VStr "a@x.com"]>
               (<["userId" := VStr "7f3c9a52-0000-4000-8000-000000000000"]> ∅))) |}.

(** Every call returns. *)
Definition all_well : Script :=
  {| on_hash := Returned "$2b$10$secret123";
     on_session := Returned 7;
     on_write := Returned {| records := [ {| u := stored_alice |} ] |};
     on_read := Returned {| records := [ {| u := stored_alice |} ] |};
     on_close := Returned tt;
     on_compare := Returned true;
     on_sign := Returned "header.payload.signature" |}.

Definition connection_lost : Error :=
  {| code := VStr "SessionExpired"; message := "Connection lost" |}.

Definition hash_failure : Error :=
  {| code := VUndefined; message := "data and salt arguments required" |}.

(** bcrypt rejects the password. *)
Definition hash_fails : Script :=
  {| on_hash := Rejected hash_failure;
     on_session := on_session all_well;
     on_write := on_write all_well;
     on_read := on_read all_well;
     on_close := on_close all_well;
     on_compare := on_compare all_well;
     on_sign := on_sign all_well |}.

(** The transactions return no record. *)
Definition no_records : Script :=
  {| on_hash := on_hash all_well;
     on_session := on_session all_well;
     on_write := Returned {| records := [] |};
     on_read := Returned {| records := [] |};
     on_close := on_close all_well;
     on_compare := on_compare all_well;
     on_sign := on_sign all_well |}.

(** Everything returns, except that closing the session fails. *)
Definition close_fails : Script :=
  {| on_hash := on_hash all_well;
     on_session := on_session all_well;
     on_write := on_write all_well;
     on_read := on_read all_well;
     on_close := Rejected connection_lost;
     on_compare := on_compare all_well;
     on_sign := on_sign all_well |}.

(** Signing fails with an error that carries the store's constraint code. *)
Definition sign_failure : Error :=
  {| code := constraint_code; message := "secretOrPrivateKey must have a value" |}.

Definition sign_fails : Script :=
  {| on_hash := on_hash all_well;
     on_session := on_session all_well;
     on_write := on_write all_well;
     on_read := on_read all_well;
     on_close := on_close all_well;
     on_compare := on_compare all_well;
     on_sign := Rejected sign_failure |}.

(** The write violates the constraint, and closing the session fails. *)
Definition taken_and_close_fails : Script :=
  {| on_hash := on_hash all_well;
     on_session := on_session all_well;
     on_write := Rejected Reference.constraint_violation;
     on_read := on_read all_well;
     on_close := Rejected connection_lost;
     on_compare := on_compare all_well;
     on_sign := on_sign all_well |}.

(** The two methods run against a script. *)
Definition registering (sc : Script) : outcome obj * list event * unit :=
  run (scripted sc)
      (AuthService.register "s3cr3t" "10" (λ _, VNum 10) "a@x.com" "secret123" "Alice") tt.

Definition authenticating (sc : Script)
  : outcome AuthService.authenticated * list event * unit :=
  run (scripted sc) (AuthService.authenticate "s3cr3t" "a@x.com" "secret123") tt.

(** The user that the two methods return when every call returns. *)
Definition alice_with_token : obj :=
  <["token" := VStr "header.payload.signature"]>
    (delete "password" (properties stored_alice)).

End Scripts.

(** * Properties *)

Import AuthService.

Lemma Ev_inj (c : call) (a a' : answer (ret c)) : Ev c a = Ev c a' → a = a'.
Proof.
  intros H. injection H as H.
  by apply (Eqdep_dec.inj_pair2_eq_dec call call_eq_dec) in H.
Qed.

Lemma Ev_call (c c' : call) (a : answer (ret c)) (a' : answer (ret c')) :
  Ev c a = Ev c' a' → c = c'.
Proof. intros H. by injection H. Qed.


(** ** Property reads *)

Lemma prop_insert_eq (o : obj) (k : string) (v : value) :
  prop (<[k := v]> o) k = v.
Proof. unfold prop. by rewrite lookup_insert_eq. Qed.

Lemma prop_insert_ne (o : obj) (k k' : string) (v : value) :
  k ≠ k' → prop (<[k := v]> o) k' = prop o k'.
Proof. intros Hk. unfold prop. by rewrite lookup_insert_ne. Qed.

Lemma prop_delete_ne (o : obj) (k k' : string) :
  k ≠ k' → prop (delete k o) k' = prop o k'.
Proof. intros Hk. unfold prop. by rewrite lookup_delete_ne. Qed.

Ltac props :=
  repeat first
    [ rewrite prop_insert_eq
    | rewrite prop_insert_ne by done
    | rewrite prop_delete_ne by done ].

(** ** Running a program against an arbitrary environment *)

(** Case analysis on the environment's answer to the next call. *)
Ltac ask h :=
  match goal with
  | |- context [h ?c ?w] => destruct (h c w) as [[?|?] ?] eqn:?; cbn
  end.

(** All the paths of a run: one goal per sequence of answers. *)
Ltac paths h :=
  cbn;
  repeat first
    [ ask h
    | match goal with
      | |- context [match records ?r with _ => _ end] =>
          destruct (records r) as [|? ?] eqn:?; cbn
      end
    | match goal with
      | |- context [decide (?c = VStr ?v)] =>
          destruct (decide (c = VStr v)); cbn
      end
    | match goal with
      | |- context [bool_decide (?b = false)] =>
          is_var b; destruct b;
          [ change (bool_decide (true = false)) with false
          | change (bool_decide (false = false)) with true ]; cbn
      end ].

(** Inversion of membership in an explicit trace. *)
Ltac in_trace :=
  repeat match goal with
    | H : _ ∈ [] |- _ => by apply not_elem_of_nil in H
    | H : _ ∈ _ :: _ |- _ => apply elem_of_cons in H as [H|H]
    | H : Ev _ _ = Ev _ _ |- _ =>
        first
          [ discriminate H
          | let E := fresh in
            pose proof (Ev_call _ _ _ _ H) as E; simplify_eq E; intros; subst;
            apply Ev_inj in H; simplify_eq H; intros; subst ]
    end.

(** Membership in an explicit trace. *)
Ltac occurs :=
  solve [ repeat first [ apply list_elem_of_here | apply list_elem_of_further ] ].

Lemma run_bind {W A B : Type} (h : handler W) (p : prog A) (f : A → prog B) (w : W) :
  run h (bind p f) w =
    match run h p w with
    | (Ok a, t, w1) => let '(o, t', w2) := run h (f a) w1 in (o, t ++ t', w2)
    | (Err e, t, w1) => (Err e, t, w1)
    end.
Proof.
  revert w. induction p as [a|e|c k IH]; intros w; cbn.
  - by destruct (run h (f a) w) as [[o t] w'].
  - done.
  - destruct (h c w) as [a w1]. rewrite IH.
    destruct (run h (k a) w1) as [[[r|e] t] w2]; [|done].
    by destruct (run h (f r) w2) as [[o t'] w3].
Qed.

(** The [finally] block runs after the [try] block, however the latter
    completes. *)
Lemma try_finally_trace {W R : Type} (h : handler W) (p : prog R) (q : prog unit) (w : W) :
  trace_of (run h (try_finally p q) w) =
    trace_of (run h p w) ++ trace_of (run h q (world_of (run h p w))).
Proof.
  revert w. induction p as [r|e|c k IH]; intros w; cbn.
  - rewrite run_bind. by destruct (run h q w) as [[[[]|e] t] w1]; cbn; rewrite ?app_nil_r.
  - rewrite run_bind. by destruct (run h q w) as [[[[]|e'] t] w1]; cbn; rewrite ?app_nil_r.
  - destruct (h c w) as [a w1]. specialize (IH a w1).
    destruct (run h (try_finally (k a) q) w1) as [[o t] w2].
    destruct (run h (k a) w1) as [[o' t'] w2']. cbn in *. by rewrite IH.
Qed.

(** ** Claims translation *)

Lemma userToClaims_lookup (user : obj) :
  userToClaims user !! "sub" = Some (prop user "userId") ∧
  userToClaims user !! "userId" = Some (prop user "userId") ∧
  userToClaims user !! "name" = Some (prop user "name").
Proof. unfold userToClaims. by simplify_map_eq. Qed.


(** C7: [userToClaims] returns exactly the record with the three properties
    [sub], [userId] and [name], where [sub] and [userId] are the input's
    [userId] and [name] is the input's [name].  It is a total function of
    its argument alone: it makes no call and throws nothing. *)
Theorem userToClaims_projection (user : obj) :
  dom (userToClaims user) = ({["sub"; "userId"; "name"]} : gset string) ∧
  userToClaims user !! "sub" = Some (prop user "userId") ∧
  userToClaims user !! "userId" = Some (prop user "userId") ∧
  userToClaims user !! "name" = Some (prop user "name").
Proof.
  split; [|apply userToClaims_lookup].
  unfold userToClaims. rewrite !dom_insert_L, dom_empty_L. set_solver.
Qed.

(** C9: [claimsToUser] resolves, without any call, to the claims with every
    property passed through unchanged, except that [userId] is set to the
    claims' [sub], whatever [userId] the claims held. *)
Theorem claimsToUser_spread (claims : obj) :
  ∃ user : obj,
    claimsToUser claims = Ret user ∧
    user !! "userId" = Some (prop claims "sub") ∧
    ∀ k : string, k ≠ "userId" → user !! k = claims !! k.
Proof.
  eexists. split; [reflexivity|]. split.
  - apply lookup_insert_eq.
  - intros k Hk. by rewrite lookup_insert_ne.
Qed.

(** C6: for a user record with [userId] and [name] properties,
    [claimsToUser(userToClaims(u))] resolves to a record with the same
    [userId] and the same [name]. *)
Theorem claimsToUser_userToClaims (user : obj) (userId name : value) :
  user !! "userId" = Some userId →
  user !! "name" = Some name →
  ∃ user' : obj,
    claimsToUser (userToClaims user) = Ret user' ∧
    user' !! "userId" = Some userId ∧
    user' !! "name" = Some name.
Proof.
  intros Hid Hname. eexists. split; [reflexivity|].
  unfold userToClaims, prop. rewrite Hid, Hname. by simplify_map_eq.
Qed.

(** ** Session discipline *)

(** [register] releases its session on every path. *)
Lemma register_releases_session {W : Type} (h : handler W) (w : W)
    (secret rounds : string) (parseInt : string → value)
    (email plainPassword name : string) :
  open_sessions (trace_of (run h (register secret rounds parseInt email plainPassword name) w)) = [].
Proof.
  unfold register. paths h.
  all: unfold open_sessions, trace_of; cbn; try reflexivity.
  all: case_decide; [congruence|reflexivity].
Qed.

(** [authenticate] releases its session on the paths on which the read
    transaction returns. *)
Lemma authenticate_releases_session_after_read {W : Type} (h : handler W) (w : W)
    (secret email password : string) (s : Session) (q : Cypher) (params : obj) (res : Result) :
  let x := run h (authenticate secret email password) w in
  Ev (executeRead s q params) (Returned res) ∈ trace_of x →
  open_sessions (trace_of x) = [].
Proof.
  unfold authenticate. paths h.
  all: unfold open_sessions, trace_of; cbn; intros Hin; try reflexivity.
  all: try (case_decide; [congruence|reflexivity]).
  all: in_trace.
Qed.

(** C4: [authenticate] has no [finally]; when the read transaction is
    rejected, the error propagates and [session.close()] is never called, so
    the session that the call opened stays open.  ([register], by
    [register_releases_session], closes its session on every path.) *)
Theorem authenticate_leaks_session_when_read_fails (secret email password : string) :
  let x := run unreachable_store (authenticate secret email password) tt in
  result_of x = Err (Raised service_unavailable) ∧
  trace_of x =
    [ Ev driver_session (Returned 0);
      Ev (executeRead 0 MatchUserByEmail (<["email" := VStr email]> ∅))
         (Rejected service_unavailable) ] ∧
  open_sessions (trace_of x) = [0].
Proof. repeat split. Qed.

(** C5: in every run of [authenticate], whatever the environment answers,
    the events before a password comparison are exactly: the session is
    opened, the read transaction returns, and [session.close()] returns.  The
    session is closed when [compare] is called. *)
Theorem authenticate_closes_before_compare {W : Type} (h : handler W) (w : W)
    (secret email password : string) (before after : list event) (ev : event) :
  trace_of (run h (authenticate secret email password) w) = before ++ ev :: after →
  is_compare ev = true →
  (∃ (s : Session) (res : Result),
     before =
       [ Ev driver_session (Returned s);
         Ev (executeRead s MatchUserByEmail (<["email" := VStr email]> ∅)) (Returned res);
         Ev (close s) (Returned tt) ]) ∧
  open_sessions before = [].
Proof.
  unfold authenticate. paths h.
  all: unfold trace_of; cbn; intros Ht Hev.
  all: repeat (destruct before as [|? before];
               [ injection Ht as <- <-; try discriminate Hev | injection Ht as <- Ht ]);
       try (by destruct before).
  all: match goal with x : ret (close _) |- _ => destruct x end.
  all: split; [by eexists _, _|].
  all: unfold open_sessions; cbn; case_decide; [congruence|reflexivity].
Qed.

(** C3: [authenticate] resolves to the one value [false], without throwing,
    both when the lookup returns no record (and the session closes) and
    when [compare] answers [false]. *)
Theorem authenticate_false {W : Type} (h : handler W) (w : W)
    (secret email password : string) :
  let x := run h (authenticate secret email password) w in
  (∃ (s : Session) (q : Cypher) (params : obj) (res : Result),
     Ev (executeRead s q params) (Returned res) ∈ trace_of x ∧
     records res = [] ∧
     Ev (close s) (Returned tt) ∈ trace_of x) ∨
  (∃ (data : string) (encrypted : value),
     Ev (compare data encrypted) (Returned false) ∈ trace_of x) →
  result_of x = Ok JFalse.
Proof.
  unfold authenticate. paths h.
  all: unfold trace_of, result_of; cbn.
  all: intros [(s & q & params & res & Hread & Hnone & Hclose)|(data & encrypted & Hcmp)].
  all: try reflexivity.
  all: in_trace; congruence.
Qed.

(** ** Failures of [register] *)

(** C2, as the code has it: [register] throws the [ValidationError] with
    the summary naming the email and the field map
    [{ email: "Email address already taken" }] exactly when a call of the
    [try] block (the write transaction, or [jwt.sign]) is rejected with the
    constraint-violation code and [session.close()] then returns.  No
    rejection is swallowed: after any rejected call [register] throws.  Every
    other thrown value is the error of a collaborator as it was raised (the
    one of [session.close()] when that call is rejected, otherwise the one
    the [try] block threw), or the runtime's [TypeError]. *)
Theorem register_validation_error {W : Type} (h : handler W) (w : W)
    (secret rounds : string) (parseInt : string → value)
    (email plainPassword name : string) :
  let x := run h (register secret rounds parseInt email plainPassword name) w in
  let email_taken :=
    ValidationError
      ("An account already exists with the email address " +:+ email)
      (<["email" := VStr "Email address already taken"]> ∅) in
  let write_violation :=
    ∃ (s : Session) (q : Cypher) (params : obj) (err : Error),
      Ev (executeWrite s q params) (Rejected err) ∈ trace_of x ∧
      code err = constraint_code in
  let sign_violation :=
    ∃ (payload : obj) (sec : string) (err : Error),
      Ev (jwt_sign payload sec) (Rejected err) ∈ trace_of x ∧
      code err = constraint_code in
  let close_returned :=
    ∃ s : Session, Ev (close s) (Returned tt) ∈ trace_of x in
  (result_of x = Err email_taken
   ↔ (write_violation ∨ sign_violation) ∧ close_returned) ∧
  (∀ (c : call) (err : Error),
     Ev c (Rejected err) ∈ trace_of x →
     result_of x = Err (Raised err) ∨
     (result_of x = Err email_taken ∧ code err = constraint_code) ∨
     (∃ (s : Session) (err' : Error),
        Ev (close s) (Rejected err') ∈ trace_of x ∧ result_of x = Err (Raised err'))) ∧
  (∀ e : exn,
     result_of x = Err e →
     e = email_taken ∨
     (∃ (c : call) (err : Error), Ev c (Rejected err) ∈ trace_of x ∧ e = Raised err) ∨
     e = TypeError "Cannot read properties of undefined (reading 'get')").
Proof.
  unfold register, constraint_code. paths h.
  all: unfold trace_of, result_of; cbn.
  all: repeat match goal with x : ret (close _) |- _ => destruct x end.
  all: try match goal with H : VUndefined = VStr _ |- _ => discriminate H end.
  all: split_and!.
  all: try (split;
            [ intros Hres; try discriminate Hres
            | intros [[(s & q & params & err & Hin & Hcode)
                      |(payload & sec & err & Hin & Hcode)] (s' & Hclose)];
              in_trace; try congruence ]).
  all: try (intros c err Hin; in_trace).
  all: try (intros e' Hres; simplify_eq Hres; intros <-).
  all: try (by left).
  all: try (by right; right).
  all: try (right; left; split; [reflexivity|assumption]).
  all: try (right; right; eexists _, _; split; [occurs|reflexivity]).
  all: try (match goal with
            | |- _ ∨ (∃ c err, _ ∧ Raised ?e = Raised err) ∨ _ =>
                match goal with
                | |- context [Ev ?c (Rejected e)] =>
                    right; left; exists c, e; split; [occurs|reflexivity]
                end
            end).
  all: try (split; [left|]; [eexists _, _, _, _; split; [occurs|assumption]
                            | eexists; occurs]).
  all: try (split; [right|]; [eexists _, _, _; split; [occurs|assumption]
                             | eexists; occurs]).
Qed.

(** ** Inputs *)

(** C10: neither method inspects its string arguments, so the statement
    holds for every string, the empty one included.

    [register] calls [hash] with the password as it is; when [hash] and
    [driver.session()] return, its next call is the write transaction with
    the email and the name as they are and the hash obtained; it throws only
    after a collaborator rejected a call or after the write transaction
    returned no record.

    [authenticate], when [driver.session()] returns, next runs the read
    transaction with the email as it is; when the lookup returns a record and
    the session closes, its next call is [compare] with the password as it
    is; it throws only what a collaborator raised.

    No other write, read or comparison is made than with these arguments. *)
Theorem arguments_forwarded_unvalidated {W : Type} (h : handler W) (w : W)
    (secret rounds : string) (parseInt : string → value)
    (email password name : string) :
  let r := run h (register secret rounds parseInt email password name) w in
  let a := run h (authenticate secret email password) w in
  let create (encrypted : string) : obj :=
    <["name" := VStr name]>
      (<["encrypted" := VStr encrypted]> (<["email" := VStr email]> ∅)) in
  let lookup : obj := <["email" := VStr email]> ∅ in
  (∃ (ans : answer string) (t : list event),
     trace_of r = Ev (hash password (parseInt rounds)) ans :: t) ∧
  (∀ (encrypted : string) (s : Session) (w1 w2 : W),
     h (hash password (parseInt rounds)) w = (Returned encrypted, w1) →
     h driver_session w1 = (Returned s, w2) →
     ∃ (ans : answer Result) (t : list event),
       trace_of r =
         Ev (hash password (parseInt rounds)) (Returned encrypted)
         :: Ev driver_session (Returned s)
         :: Ev (executeWrite s CreateUser (create encrypted)) ans :: t) ∧
  (∀ (s : Session) (q : Cypher) (params : obj) (ans : answer Result),
     Ev (executeWrite s q params) ans ∈ trace_of r →
     ∃ encrypted : string,
       Ev (hash password (parseInt rounds)) (Returned encrypted) ∈ trace_of r ∧
       q = CreateUser ∧ params = create encrypted) ∧
  (∀ e : exn,
     result_of r = Err e →
     (∃ ev : event, ev ∈ trace_of r ∧ is_Some (rejection ev)) ∨
     (∃ (s : Session) (q : Cypher) (params : obj) (res : Result),
        Ev (executeWrite s q params) (Returned res) ∈ trace_of r ∧ records res = [])) ∧
  (∀ (s : Session) (w1 : W),
     h driver_session w = (Returned s, w1) →
     ∃ (ans : answer Result) (t : list event),
       trace_of a =
         Ev driver_session (Returned s)
         :: Ev (executeRead s MatchUserByEmail lookup) ans :: t) ∧
  (∀ (s : Session) (res : Result) (first : Row) (rest : list Row) (w1 w2 w3 : W),
     h driver_session w = (Returned s, w1) →
     h (executeRead s MatchUserByEmail lookup) w1 = (Returned res, w2) →
     h (close s) w2 = (Returned tt, w3) →
     records res = first :: rest →
     ∃ (ans : answer bool) (t : list event),
       trace_of a =
         Ev driver_session (Returned s)
         :: Ev (executeRead s MatchUserByEmail lookup) (Returned res)
         :: Ev (close s) (Returned tt)
         :: Ev (compare password (prop (properties (u first)) "password")) ans :: t) ∧
  (∀ (s : Session) (q : Cypher) (params : obj) (ans : answer Result),
     Ev (executeRead s q params) ans ∈ trace_of a →
     q = MatchUserByEmail ∧ params = lookup) ∧
  (∀ (data : string) (encrypted : value) (ans : answer bool),
     Ev (compare data encrypted) ans ∈ trace_of a → data = password) ∧
  (∀ e : exn,
     result_of a = Err e →
     ∃ (ev : event) (err : Error),
       ev ∈ trace_of a ∧ rejection ev = Some err ∧ e = Raised err).
Proof.
  cbv zeta. split_and!.
  - unfold register. cbn. destruct (h (hash _ _) w) as [ans w1].
    destruct (run h _ w1) as [[o t] w2]. by eexists _, _.
  - intros encrypted s w1 w2 Hhash Hsession.
    unfold register. cbn. rewrite Hhash. cbn. rewrite Hsession. cbn.
    destruct (h (executeWrite _ _ _) w2) as [ans w3].
    destruct (run h _ w3) as [[o t] w4]. by eexists _, _.
  - unfold register. paths h.
    all: unfold trace_of; cbn; intros s q params ans Hin; in_trace.
    all: eexists; split; [occurs|done].
  - unfold register. paths h.
    all: unfold trace_of, result_of; cbn; intros e' He'; try discriminate He'.
    all: try (right; by eexists _, _, _, _; split; [occurs|]).
    all: left;
      match goal with
      | |- context [Ev ?c (Rejected ?e)] =>
          exists (Ev c (Rejected e)); split; [occurs|by eexists]
      end.
  - intros s w1 Hsession.
    unfold authenticate. cbn. rewrite Hsession. cbn.
    destruct (h (executeRead _ _ _) w1) as [ans w2].
    destruct (run h _ w2) as [[o t] w3]. by eexists _, _.
  - intros s res first rest w1 w2 w3 Hsession Hread Hclose Hrecords.
    unfold authenticate. cbn. rewrite Hsession. cbn. rewrite Hread. cbn.
    rewrite Hclose. cbn. rewrite Hrecords. cbn.
    destruct (h (compare _ _) w3) as [ans w4].
    destruct (run h _ w4) as [[o t] w5]. by eexists _, _.
  - unfold authenticate. paths h.
    all: unfold trace_of; cbn; intros s q params ans Hin; by in_trace.
  - unfold authenticate. paths h.
    all: unfold trace_of; cbn; intros data encrypted ans Hin; by in_trace.
  - unfold authenticate. paths h.
    all: unfold trace_of, result_of; cbn; intros e' He'; simplify_eq He'; intros <-.
    all: match goal with
         | |- context [Ev ?c (Rejected ?e)] =>
             exists (Ev c (Rejected e)), e; split; [occurs|done]
         end.
Qed.

(** ** Tokens *)

(** C8: when the toolkit honours its contract on the tokens signed in the
    run, the record returned by a successful [register] or [authenticate]
    carries a token that verifies under the signing secret to claims whose
    [sub] and [userId] are the returned user's [userId] and whose [name] is
    the returned user's [name]. *)
Theorem token_claims {W : Type} (h : handler W) (w : W)
    (verify : string → string → option obj)
    (secret rounds : string) (parseInt : string → value)
    (email password name : string) :
  let r := run h (register secret rounds parseInt email password name) w in
  let a := run h (authenticate secret email password) w in
  let decodes (user : obj) :=
    ∃ (token : string) (claims : obj),
      user !! "token" = Some (VStr token) ∧
      verify token secret = Some claims ∧
      prop claims "sub" = prop user "userId" ∧
      prop claims "userId" = prop user "userId" ∧
      prop claims "name" = prop user "name" in
  (∀ user : obj,
     signs_verifiably verify (trace_of r) → result_of r = Ok user → decodes user) ∧
  (∀ user : obj,
     signs_verifiably verify (trace_of a) → result_of a = Ok (JUser user) → decodes user).
Proof.
  cbv zeta. unfold signs_verifiably. split.
  - unfold register. paths h.
    all: unfold trace_of, result_of; cbn; intros user Hv Hres; simplify_eq Hres; intros <-.
    edestruct Hv as (claims & Hverify & Hclaims); [occurs|].
    eexists _, claims. split; [apply lookup_insert_eq|]. split; [exact Hverify|].
    rewrite !prop_insert_ne by done.
    split_and!; apply Hclaims, userToClaims_lookup.
  - unfold authenticate. paths h.
    all: unfold trace_of, result_of; cbn; intros user Hv Hres; simplify_eq Hres; intros <-.
    edestruct Hv as (claims & Hverify & Hclaims); [occurs|].
    eexists _, claims. split; [apply lookup_insert_eq|]. split; [exact Hverify|].
    rewrite !prop_insert_ne by done.
    split_and!; apply Hclaims, userToClaims_lookup.
Qed.

(** ** Registration followed by authentication *)

Lemma filter_no_match (email : value) (ns : list Node) :
  existsb (Reference.has_email email) ns = false →
  List.filter (Reference.has_email email) ns = [].
Proof.
  induction ns as [|n ns IH]; cbn; [done|].
  destruct (Reference.has_email email n); cbn; [done|exact IH].
Qed.

Lemma match_new_user (email : value) (userId : string) (params : obj) (ns : list Node) :
  prop params "email" = email →
  existsb (Reference.has_email email) ns = false →
  List.filter (Reference.has_email email) (ns ++ [Reference.new_user userId params])
  = [Reference.new_user userId params].
Proof.
  intros Hemail Hfresh. rewrite List.filter_app, filter_no_match by done. cbn.
  unfold Reference.has_email at 1. rewrite bool_decide_eq_true_2; [done|].
  rewrite <- Hemail. unfold Reference.new_user; cbn.
  by rewrite prop_insert_ne, prop_insert_ne, prop_insert_eq.
Qed.

(** C1: in the reference environment, with a password comparison that
    accepts the hashes of the password hash, [register] of an email that is
    not yet registered returns a record, and [authenticate] with the same
    email and password on the resulting store returns a record with the same
    [userId], the registered [email] and [name], and no [password]
    property. *)
Theorem register_then_authenticate
    (bcrypt_hash : string → value → string) (bcrypt_compare : string → value → bool)
    (sign : obj → string → string) (randomUuid : nat → string)
    (secret rounds : string) (parseInt : string → value)
    (w : Reference.Store) (email password name : string) :
  (∀ (data : string) (saltRounds : value),
     bcrypt_compare data (VStr (bcrypt_hash data saltRounds)) = true) →
  ¬ Reference.registered email w →
  let env := Reference.env bcrypt_hash bcrypt_compare sign randomUuid in
  let r := run env (register secret rounds parseInt email password name) w in
  let a := run env (authenticate secret email password) (world_of r) in
  ∃ registered authenticated : obj,
    result_of r = Ok registered ∧
    result_of a = Ok (JUser authenticated) ∧
    registered !! "userId" = Some (VStr (randomUuid (length (Reference.nodes w)))) ∧
    registered !! "email" = Some (VStr email) ∧
    registered !! "name" = Some (VStr name) ∧
    registered !! "password" = None ∧
    authenticated !! "userId" = registered !! "userId" ∧
    authenticated !! "email" = Some (VStr email) ∧
    authenticated !! "name" = Some (VStr name) ∧
    authenticated !! "password" = None.
Proof.
  intros Hcompare Hfresh. unfold Reference.registered in Hfresh.
  apply not_true_is_false in Hfresh.
  cbv zeta. unfold register. cbn.
  unfold Reference.create_user. cbn [Reference.nodes Reference.sessions].
  props. rewrite Hfresh. cbn.
  unfold authenticate, world_of. cbn. unfold Reference.match_user.
  cbn [Reference.nodes Reference.sessions]. props.
  rewrite match_new_user by (done || by props). cbn. props.
  rewrite Hcompare. change (bool_decide (true = false)) with false. cbn.
  eexists _, _. split; [reflexivity|]. split; [reflexivity|].
  by simplify_map_eq.
Qed.

(** ** The statements at the sample data *)

Lemma claimsToUser_userToClaims_witness :
  ∃ user' : obj,
    claimsToUser
      (userToClaims
         (<["name" := VStr "Alice"]>
            (<["email" := VStr "a@x.com"]>
               (<["userId" := VStr "7f3c9a52-0000-4000-8000-000000000000"]> ∅))))
    = Ret user' ∧
    user' !! "userId" = Some (VStr "7f3c9a52-0000-4000-8000-000000000000") ∧
    user' !! "name" = Some (VStr "Alice").
Proof.
  apply (claimsToUser_userToClaims
           (<["name" := VStr "Alice"]>
              (<["email" := VStr "a@x.com"]>
                 (<["userId" := VStr "7f3c9a52-0000-4000-8000-000000000000"]> ∅))));
    vm_compute; reflexivity.
Defined.

Lemma register_then_authenticate_witness :
  let r := run Sample.env
             (register "s3cr3t" "10" (λ _, VNum 10) "a@x.com" "secret123" "Alice")
             Sample.empty in
  let a := run Sample.env (authenticate "s3cr3t" "a@x.com" "secret123") (world_of r) in
  ∃ registered authenticated : obj,
    result_of r = Ok registered ∧
    result_of a = Ok (JUser authenticated) ∧
    registered !! "userId" = Some (VStr "7f3c9a52-0000-4000-8000-000000000000") ∧
    registered !! "email" = Some (VStr "a@x.com") ∧
    registered !! "name" = Some (VStr "Alice") ∧
    registered !! "password" = None ∧
    authenticated !! "userId" = registered !! "userId" ∧
    authenticated !! "email" = Some (VStr "a@x.com") ∧
    authenticated !! "name" = Some (VStr "Alice") ∧
    authenticated !! "password" = None.
Proof.
  apply (register_then_authenticate
           Sample.bcrypt_hash Sample.bcrypt_compare Sample.sign Sample.randomUuid
           "s3cr3t" "10" (λ _, VNum 10) Sample.empty "a@x.com" "secret123" "Alice").
  - intros data saltRounds. apply bool_decide_eq_true_2. reflexivity.
  - vm_compute. discriminate.
Defined.

Lemma authenticate_false_witness :
  result_of (run Sample.env (authenticate "s3cr3t" "a@x.com" "wrong") Sample.alice)
  = Ok JFalse ∧
  result_of (run Sample.env (authenticate "s3cr3t" "nouser@x.com" "x") Sample.alice)
  = Ok JFalse.
Proof.
  split.
  - apply (authenticate_false Sample.env Sample.alice "s3cr3t" "a@x.com" "wrong").
    right. exists "wrong", (VStr "$2b$10$secret123").
    vm_compute. occurs.
  - apply (authenticate_false Sample.env Sample.alice "s3cr3t" "nouser@x.com" "x").
    left. exists 1, MatchUserByEmail, (<["email" := VStr "nouser@x.com"]> ∅), {| records := [] |}.
    vm_compute. split; [occurs|]. split; [reflexivity|occurs].
Defined.

(** Evaluation of the trace of a closed run. *)
Ltac eval_trace :=
  match goal with
  | |- context [trace_of ?x] =>
      let t := eval vm_compute in (trace_of x) in
      change (trace_of x) with t
  end.

Lemma authenticate_closes_before_compare_witness :
  let t := trace_of (run Sample.env (authenticate "s3cr3t" "a@x.com" "secret123")
                       Sample.alice) in
  (∃ (s : Session) (res : Result),
     take 3 t =
       [ Ev driver_session (Returned s);
         Ev (executeRead s MatchUserByEmail (<["email" := VStr "a@x.com"]> ∅)) (Returned res);
         Ev (close s) (Returned tt) ]) ∧
  open_sessions (take 3 t) = [].
Proof.
  intros t.
  apply (authenticate_closes_before_compare Sample.env Sample.alice
           "s3cr3t" "a@x.com" "secret123"
           (take 3 t) (drop 4 t)
           (Ev (compare "secret123" (VStr "$2b$10$secret123")) (Returned true))).
  - vm_compute. reflexivity.
  - reflexivity.
Defined.

Lemma register_validation_error_witness :
  result_of (run Sample.env
               (register "s3cr3t" "10" (λ _, VNum 10) "a@x.com" "hunter2" "Mallory")
               Sample.alice)
  = Err (ValidationError
           "An account already exists with the email address a@x.com"
           (<["email" := VStr "Email address already taken"]> ∅)).
Proof.
  apply (proj1 (register_validation_error Sample.env Sample.alice
                  "s3cr3t" "10" (λ _, VNum 10) "a@x.com" "hunter2" "Mallory")).
  split.
  - left.
    exists 1, CreateUser,
      (<["name" := VStr "Mallory"]>
         (<["encrypted" := VStr "$2b$10$hunter2"]> (<["email" := VStr "a@x.com"]> ∅))),
      Reference.constraint_violation.
    split; [vm_compute; occurs|reflexivity].
  - exists 1. vm_compute. occurs.
Defined.

Lemma register_validation_error_counterexample :
  let x := Scripts.registering Scripts.taken_and_close_fails in
  (∃ (s : Session) (q : Cypher) (params : obj) (err : Error),
     Ev (executeWrite s q params) (Rejected err) ∈ trace_of x ∧
     code err = constraint_code) ∧
  result_of x = Err (Raised Scripts.connection_lost) ∧
  result_of x ≠
    Err (ValidationError
           "An account already exists with the email address a@x.com"
           (<["email" := VStr "Email address already taken"]> ∅)).
Proof.
  split; [|split].
  - eexists 7, CreateUser, _, Reference.constraint_violation.
    split; [cbn; occurs|reflexivity].
  - reflexivity.
  - cbn. discriminate.
Qed.

Lemma token_claims_witness :
  let user : obj :=
    <["token" := VStr "header.7f3c9a52-0000-4000-8000-000000000000.s3cr3t"]>
      (<["name" := VStr "Alice"]>
         (<["email" := VStr "a@x.com"]>
            (<["userId" := VStr "7f3c9a52-0000-4000-8000-000000000000"]> ∅))) in
  ∃ (token : string) (claims : obj),
    user !! "token" = Some (VStr token) ∧
    Sample.verify token "s3cr3t" = Some claims ∧
    prop claims "sub" = prop user "userId" ∧
    prop claims "userId" = prop user "userId" ∧
    prop claims "name" = prop user "name".
Proof.
  intros user.
  apply (proj1 (token_claims Sample.env Sample.empty Sample.verify
                  "s3cr3t" "10" (λ _, VNum 10) "a@x.com" "secret123" "Alice") user).
  - intros payload secret token. eval_trace. intros Hin. in_trace.
    eexists. split; [vm_compute; reflexivity|].
    match goal with
    | |- ∀ k v, ?m !! k = Some v → @?P k v =>
        apply (bool_decide_unpack (map_Forall P m)); vm_compute; exact I
    end.
  - vm_compute. reflexivity.
Defined.

Lemma arguments_forwarded_unvalidated_witness :
  let r := run Sample.env (register "s3cr3t" "10" (λ _, VNum 10) "" "" "") Sample.empty in
  let a := run Sample.env (authenticate "s3cr3t" "" "") Sample.empty in
  (∃ user : obj, result_of r = Ok user) ∧
  (∃ (ans : answer Result) (t : list event),
     trace_of r =
       Ev (hash "" (VNum 10)) (Returned "$2b$10$")
       :: Ev driver_session (Returned 0)
       :: Ev (executeWrite 0 CreateUser
                (<["name" := VStr ""]>
                   (<["encrypted" := VStr "$2b$10$"]> (<["email" := VStr ""]> ∅))))
             ans :: t) ∧
  (∃ (ans : answer Result) (t : list event),
     trace_of a =
       Ev driver_session (Returned 0)
       :: Ev (executeRead 0 MatchUserByEmail (<["email" := VStr ""]> ∅)) ans :: t).
Proof.
  intros r a.
  pose proof (arguments_forwarded_unvalidated Sample.env Sample.empty
                "s3cr3t" "10" (λ _, VNum 10) "" "" "")
    as (_ & Hwrite & _ & _ & Hread & _).
  split; [|split].
  - eexists. vm_compute. reflexivity.
  - apply (Hwrite "$2b$10$" 0 Sample.empty
             {| Reference.nodes := []; Reference.sessions := 1 |});
      reflexivity.
  - apply (Hread 0 {| Reference.nodes := []; Reference.sessions := 1 |}).
    reflexivity.
Defined.

(** * Further properties *)

(** ** Sessions *)

(** X1: whatever the environment answers, once [driver.session()] has
    returned a session in [register], [session.close()] on that session is
    the last call of the run, and the run leaves no session open. *)
Theorem register_session_closed_last {W : Type} (h : handler W) (w : W)
    (secret rounds : string) (parseInt : string → value)
    (email plainPassword name : string) (s : Session) :
  let t := trace_of (run h (register secret rounds parseInt email plainPassword name) w) in
  Ev driver_session (Returned s) ∈ t →
  (∃ ans : answer unit, last t = Some (Ev (close s) ans)) ∧
  count is_close t = 1 ∧
  open_sessions t = [].
Proof.
  unfold register. paths h.
  all: unfold trace_of; cbn; intros Hin; in_trace.
  all: split; [by eexists|]; split; [reflexivity|].
  all: unfold open_sessions; cbn; case_decide; [congruence|reflexivity].
Qed.

(** X2: once the read transaction of [authenticate] has returned, the next
    call is [session.close()] on its session, and the run leaves no session
    open, whatever happens afterwards. *)
Theorem authenticate_closes_after_read {W : Type} (h : handler W) (w : W)
    (secret email password : string)
    (s : Session) (q : Cypher) (params : obj) (res : Result) :
  let t := trace_of (run h (authenticate secret email password) w) in
  Ev (executeRead s q params) (Returned res) ∈ t →
  (∃ ans : answer unit, t !! 2 = Some (Ev (close s) ans)) ∧
  count is_close t = 1 ∧
  open_sessions t = [].
Proof.
  unfold authenticate. paths h.
  all: unfold trace_of; cbn; intros Hin; in_trace.
  all: split; [by eexists|]; split; [reflexivity|].
  all: unfold open_sessions; cbn; try reflexivity.
  all: case_decide; [congruence|reflexivity].
Qed.

(** ** What the successful paths return *)

(** X3: whatever the environment answers, a record returned by [register]
    is built from the first record of the write transaction: it has no
    [password] property, its [token] is the one [jwt.sign] returned for the
    claims of that record under the signing secret, and every other property
    is the stored node's. *)
Theorem register_returns_safe_properties {W : Type} (h : handler W) (w : W)
    (secret rounds : string) (parseInt : string → value)
    (email plainPassword name : string) (user : obj) :
  let x := run h (register secret rounds parseInt email plainPassword name) w in
  result_of x = Ok user →
  ∃ (s : Session) (params : obj) (res : Result) (first : Row) (rest : list Row)
    (token : string),
    Ev (executeWrite s CreateUser params) (Returned res) ∈ trace_of x ∧
    records res = first :: rest ∧
    Ev (jwt_sign (userToClaims (delete "password" (properties (u first)))) secret)
       (Returned token) ∈ trace_of x ∧
    user !! "password" = None ∧
    user !! "token" = Some (VStr token) ∧
    ∀ k : string, k ≠ "password" → k ≠ "token" → user !! k = properties (u first) !! k.
Proof.
  unfold register. paths h.
  all: unfold trace_of, result_of; cbn; intros Hres; simplify_eq Hres; intros <-.
  eexists _, _, _, _, _, _. split; [occurs|]. split; [eassumption|].
  split; [occurs|]. split; [|split].
  - rewrite lookup_insert_ne by done. apply lookup_delete_eq.
  - apply lookup_insert_eq.
  - intros k Hp Ht. by rewrite lookup_insert_ne, lookup_delete_ne.
Qed.

(** X4: whatever the environment answers, [authenticate] returns a user only
    on the path on which [compare], called with the supplied password and the
    [password] property of the first record of the lookup, returned [true];
    the user has no [password] property, its [token] is the one [jwt.sign]
    returned, and every other property is the stored node's. *)
Theorem authenticate_returns_safe_properties {W : Type} (h : handler W) (w : W)
    (secret email password : string) (user : obj) :
  let x := run h (authenticate secret email password) w in
  result_of x = Ok (JUser user) →
  ∃ (s : Session) (res : Result) (first : Row) (rest : list Row) (token : string),
    Ev (executeRead s MatchUserByEmail (<["email" := VStr email]> ∅)) (Returned res)
      ∈ trace_of x ∧
    records res = first :: rest ∧
    Ev (compare password (prop (properties (u first)) "password")) (Returned true)
      ∈ trace_of x ∧
    Ev (jwt_sign (userToClaims (delete "password" (properties (u first)))) secret)
       (Returned token) ∈ trace_of x ∧
    user !! "password" = None ∧
    user !! "token" = Some (VStr token) ∧
    ∀ k : string, k ≠ "password" → k ≠ "token" → user !! k = properties (u first) !! k.
Proof.
  unfold authenticate. paths h.
  all: unfold trace_of, result_of; cbn; intros Hres; simplify_eq Hres; intros <-.
  eexists _, _, _, _, _. split; [occurs|]. split; [eassumption|].
  split; [occurs|]. split; [occurs|]. split; [|split].
  - rewrite lookup_insert_ne by done. apply lookup_delete_eq.
  - apply lookup_insert_eq.
  - intros k Hp Ht. by rewrite lookup_insert_ne, lookup_delete_ne.
Qed.

(** X5: every payload that [register] or [authenticate] asks [jwt.sign] to
    sign is signed under the signing secret and has exactly the properties
    [sub], [userId] and [name]; their values are the [userId], the [userId]
    and the [name] of the first record that the transaction of the run
    returned.  No other property of the node is a property of the payload. *)
Theorem token_payload {W : Type} (h : handler W) (w : W)
    (secret rounds : string) (parseInt : string → value)
    (email password name : string) (payload : obj) (sec : string)
    (ans : answer string) :
  let r := trace_of (run h (register secret rounds parseInt email password name) w) in
  let a := trace_of (run h (authenticate secret email password) w) in
  let signs (first : Row) :=
    sec = secret ∧
    dom payload = ({["sub"; "userId"; "name"]} : gset string) ∧
    payload !! "sub" = Some (prop (properties (u first)) "userId") ∧
    payload !! "userId" = Some (prop (properties (u first)) "userId") ∧
    payload !! "name" = Some (prop (properties (u first)) "name") in
  (Ev (jwt_sign payload sec) ans ∈ r →
   ∃ (s : Session) (params : obj) (res : Result) (first : Row) (rest : list Row),
     Ev (executeWrite s CreateUser params) (Returned res) ∈ r ∧
     records res = first :: rest ∧ signs first) ∧
  (Ev (jwt_sign payload sec) ans ∈ a →
   ∃ (s : Session) (params : obj) (res : Result) (first : Row) (rest : list Row),
     Ev (executeRead s MatchUserByEmail params) (Returned res) ∈ a ∧
     records res = first :: rest ∧ signs first).
Proof.
  assert (Hclaims : ∀ user : obj,
             dom (userToClaims (delete "password" user))
             = ({["sub"; "userId"; "name"]} : gset string) ∧
             userToClaims (delete "password" user) !! "sub" = Some (prop user "userId") ∧
             userToClaims (delete "password" user) !! "userId" = Some (prop user "userId") ∧
             userToClaims (delete "password" user) !! "name" = Some (prop user "name")).
  { intros user. split.
    - unfold userToClaims. rewrite !dom_insert_L, dom_empty_L. set_solver.
    - destruct (userToClaims_lookup (delete "password" user)) as (-> & -> & ->).
      by rewrite !prop_delete_ne. }
  cbv zeta. split.
  - unfold register. paths h.
    all: unfold trace_of; cbn; intros Hin; in_trace.
    all: eexists _, _, _, _, _; split; [occurs|]; split; [eassumption|].
    all: split; [reflexivity|apply Hclaims].
  - unfold authenticate. paths h.
    all: unfold trace_of; cbn; intros Hin; in_trace.
    all: eexists _, _, _, _, _; split; [occurs|]; split; [eassumption|].
    all: split; [reflexivity|apply Hclaims].
Qed.

(** ** What the methods never do *)

(** X6: whatever the environment answers, [register] hashes the password
    exactly once, opens at most one session, runs at most one write
    transaction (a rejected write is not retried) and signs at most one token;
    it never reads from the store and never compares a password. *)
Theorem register_calls {W : Type} (h : handler W) (w : W)
    (secret rounds : string) (parseInt : string → value)
    (email plainPassword name : string) :
  let t := trace_of (run h (register secret rounds parseInt email plainPassword name) w) in
  count is_hash t = 1 ∧
  count is_open t ≤ 1 ∧
  count is_write t ≤ 1 ∧
  count is_sign t ≤ 1 ∧
  count is_close t ≤ 1 ∧
  count is_read t = 0 ∧
  count is_compare t = 0.
Proof.
  unfold register. paths h.
  all: unfold trace_of, count; cbn; lia.
Qed.

(** X7: whatever the environment answers, [authenticate] asks for a session
    exactly once, runs at most one read transaction, compares at most one
    password and signs at most one token; it never writes to the store and
    never hashes a password. *)
Theorem authenticate_calls {W : Type} (h : handler W) (w : W)
    (secret email password : string) :
  let t := trace_of (run h (authenticate secret email password) w) in
  count is_open t = 1 ∧
  count is_read t ≤ 1 ∧
  count is_compare t ≤ 1 ∧
  count is_sign t ≤ 1 ∧
  count is_close t ≤ 1 ∧
  count is_write t = 0 ∧
  count is_hash t = 0.
Proof.
  unfold authenticate. paths h.
  all: unfold trace_of, count; cbn; lia.
Qed.

(** X8: every transaction and every [close] of a run of [register] or of
    [authenticate] is called on the session that [driver.session()] returned
    in that run. *)
Theorem transactions_on_own_session {W : Type} (h : handler W) (w : W)
    (secret rounds : string) (parseInt : string → value)
    (email password name : string) (ev : event) (s : Session) :
  let r := trace_of (run h (register secret rounds parseInt email password name) w) in
  let a := trace_of (run h (authenticate secret email password) w) in
  session_of ev = Some s →
  (ev ∈ r → Ev driver_session (Returned s) ∈ r) ∧
  (ev ∈ a → Ev driver_session (Returned s) ∈ a).
Proof.
  cbv zeta. intros Hs. split.
  - unfold register. paths h.
    all: unfold trace_of; cbn; intros Hin; in_trace; subst ev.
    all: try discriminate Hs.
    all: cbn in Hs; injection Hs as <-; occurs.
  - unfold authenticate. paths h.
    all: unfold trace_of; cbn; intros Hin; in_trace; subst ev.
    all: try discriminate Hs.
    all: cbn in Hs; injection Hs as <-; occurs.
Qed.

(** ** Failures *)

(** X9: [register] hashes the password before it touches the store: when
    [hash] is rejected, its error is thrown and nothing else was called, so no
    session was opened. *)
Theorem register_hash_rejected {W : Type} (h : handler W) (w : W)
    (secret rounds : string) (parseInt : string → value)
    (email plainPassword name : string) (data : string) (saltRounds : value) (e : Error) :
  let x := run h (register secret rounds parseInt email plainPassword name) w in
  Ev (hash data saltRounds) (Rejected e) ∈ trace_of x →
  result_of x = Err (Raised e) ∧
  trace_of x = [ Ev (hash plainPassword (parseInt rounds)) (Rejected e) ].
Proof.
  unfold register. paths h.
  all: unfold trace_of, result_of; cbn; intros Hin; in_trace.
  done.
Qed.

(** X10: when the write transaction of [register] returns no record, the
    access to the first record throws the runtime's [TypeError]; the session
    is closed all the same, no token is signed, and, [close] returning, the
    [TypeError] is what [register] throws. *)
Theorem register_no_record {W : Type} (h : handler W) (w : W)
    (secret rounds : string) (parseInt : string → value)
    (email plainPassword name : string)
    (s : Session) (q : Cypher) (params : obj) (res : Result) :
  let x := run h (register secret rounds parseInt email plainPassword name) w in
  Ev (executeWrite s q params) (Returned res) ∈ trace_of x →
  records res = [] →
  Ev (close s) (Returned tt) ∈ trace_of x →
  result_of x = Err (TypeError "Cannot read properties of undefined (reading 'get')") ∧
  count is_sign (trace_of x) = 0 ∧
  open_sessions (trace_of x) = [].
Proof.
  unfold register. paths h.
  all: unfold trace_of, result_of; cbn; intros Hin Hnone Hclose; in_trace.
  all: try congruence.
  all: split; [reflexivity|]; split; [reflexivity|].
  all: unfold open_sessions; cbn; case_decide; [congruence|reflexivity].
Qed.

(** X11: an error of [session.close()] in the [finally] block of [register]
    replaces the completion of the [try] block: [register] then throws that
    error, also when the user was created and the token signed. *)
Theorem register_close_rejected {W : Type} (h : handler W) (w : W)
    (secret rounds : string) (parseInt : string → value)
    (email plainPassword name : string) (s : Session) (e : Error) :
  let x := run h (register secret rounds parseInt email plainPassword name) w in
  Ev (close s) (Rejected e) ∈ trace_of x →
  result_of x = Err (Raised e).
Proof.
  unfold register. paths h.
  all: unfold trace_of, result_of; cbn; intros Hin; in_trace.
  all: reflexivity.
Qed.

(** X12: when [session.close()] is rejected in [authenticate], its error is
    thrown and the run ends there: no password is compared and no token is
    signed. *)
Theorem authenticate_close_rejected {W : Type} (h : handler W) (w : W)
    (secret email password : string) (s : Session) (e : Error) :
  let x := run h (authenticate secret email password) w in
  Ev (close s) (Rejected e) ∈ trace_of x →
  result_of x = Err (Raised e) ∧
  count is_compare (trace_of x) = 0 ∧
  count is_sign (trace_of x) = 0.
Proof.
  unfold authenticate. paths h.
  all: unfold trace_of, result_of; cbn; intros Hin; in_trace.
  all: done.
Qed.

(** ** The lookup of [authenticate] *)

(** X13: when the lookup returns no record, the run of [authenticate] is
    over after three calls: the session is opened, the read transaction is
    run with the email as its one parameter, and the session is closed.  No
    password is compared on this path. *)
Theorem authenticate_no_record {W : Type} (h : handler W) (w : W)
    (secret email password : string)
    (s : Session) (q : Cypher) (params : obj) (res : Result) :
  let x := run h (authenticate secret email password) w in
  Ev (executeRead s q params) (Returned res) ∈ trace_of x →
  records res = [] →
  ∃ ans : answer unit,
    trace_of x =
      [ Ev driver_session (Returned s);
        Ev (executeRead s MatchUserByEmail (<["email" := VStr email]> ∅)) (Returned res);
        Ev (close s) ans ].
Proof.
  unfold authenticate. paths h.
  all: unfold trace_of; cbn; intros Hin Hnone; in_trace.
  all: try congruence.
  all: by eexists.
Qed.

(** X14: [authenticate] asks for a token only after [compare] returned
    [true] for the supplied password. *)
Theorem authenticate_signs_after_compare {W : Type} (h : handler W) (w : W)
    (secret email password : string) (payload : obj) (sec : string) (ans : answer string) :
  let x := run h (authenticate secret email password) w in
  Ev (jwt_sign payload sec) ans ∈ trace_of x →
  ∃ encrypted : value,
    Ev (compare password encrypted) (Returned true) ∈ trace_of x.
Proof.
  unfold authenticate. paths h.
  all: unfold trace_of; cbn; intros Hin; in_trace.
  all: eexists; occurs.
Qed.

(** X15: the hash that [authenticate] hands to [compare] is the [password]
    property of the first record of the lookup, whatever further records the
    lookup returned; when that node has no [password] property, [compare]
    receives [undefined]. *)
Theorem authenticate_compares_first_record {W : Type} (h : handler W) (w : W)
    (secret email password : string) (data : string) (encrypted : value)
    (ans : answer bool) :
  let x := run h (authenticate secret email password) w in
  Ev (compare data encrypted) ans ∈ trace_of x →
  ∃ (s : Session) (res : Result) (first : Row) (rest : list Row),
    Ev (executeRead s MatchUserByEmail (<["email" := VStr email]> ∅)) (Returned res)
      ∈ trace_of x ∧
    records res = first :: rest ∧
    encrypted = prop (properties (u first)) "password" ∧
    (properties (u first) !! "password" = None → encrypted = VUndefined).
Proof.
  unfold authenticate. paths h.
  all: unfold trace_of; cbn; intros Hin; in_trace.
  all: eexists _, _, _, _; split; [occurs|]; split; [eassumption|].
  all: split; [reflexivity|].
  all: unfold prop; intros Hnone; by rewrite Hnone.
Qed.

(** ** Claims translation, composed *)

(** X16: the claims of a user are a fixed point of [claimsToUser]:
    [claimsToUser(userToClaims(u))] resolves to [userToClaims(u)] itself, so
    it keeps [sub] and holds none of the user's other properties. *)
Theorem claimsToUser_userToClaims_fixed (user : obj) :
  claimsToUser (userToClaims user) = Ret (userToClaims user).
Proof.
  destruct (userToClaims_lookup user) as (Hsub & Hid & _).
  unfold claimsToUser, prop. rewrite Hsub. cbn.
  by rewrite insert_id.
Qed.

(** X17: [claimsToUser] is idempotent: translating its result again changes
    nothing. *)
Theorem claimsToUser_idempotent (claims : obj) :
  (user ← claimsToUser claims; claimsToUser user) = claimsToUser claims.
Proof.
  unfold claimsToUser. cbn. f_equal.
  rewrite prop_insert_ne by done. apply insert_insert_eq.
Qed.

(** X18: for decoded claims that extend the claims of a user (the toolkit
    adds claims such as [iat]), the claims of the user that [claimsToUser]
    resolves to are again the claims of the original user. *)
Theorem userToClaims_claimsToUser (user claims : obj) :
  userToClaims user ⊆ claims →
  ∃ user' : obj,
    claimsToUser claims = Ret user' ∧
    userToClaims user' = userToClaims user.
Proof.
  intros Hsub. eexists. split; [reflexivity|].
  destruct (userToClaims_lookup user) as (Hs & _ & Hn).
  apply (lookup_weaken _ _ _ _ Hs) in Hsub as Hs'.
  apply (lookup_weaken _ _ _ _ Hn) in Hsub as Hn'.
  unfold userToClaims at 1.
  rewrite prop_insert_eq, prop_insert_ne by done.
  unfold prop at 1 2 3. rewrite Hs', Hn'. reflexivity.
Qed.

(** ** The reference environment *)

(** X19: in the reference environment, [register] of an email that is
    already registered throws the [ValidationError] for that email, creates
    no node and leaves no session open. *)
Theorem register_twice
    (bcrypt_hash : string → value → string) (bcrypt_compare : string → value → bool)
    (sign : obj → string → string) (randomUuid : nat → string)
    (secret rounds : string) (parseInt : string → value)
    (w : Reference.Store) (email password name : string) :
  Reference.registered email w →
  let x := run (Reference.env bcrypt_hash bcrypt_compare sign randomUuid)
               (register secret rounds parseInt email password name) w in
  result_of x =
    Err (ValidationError
           ("An account already exists with the email address " +:+ email)
           (<["email" := VStr "Email address already taken"]> ∅)) ∧
  Reference.nodes (world_of x) = Reference.nodes w ∧
  open_sessions (trace_of x) = [].
Proof.
  unfold Reference.registered. intros Htaken.
  cbv zeta. unfold register. cbn.
  unfold Reference.create_user. cbn [Reference.nodes Reference.sessions].
  props. rewrite Htaken. cbn. rewrite decide_True by reflexivity. cbn.
  split; [reflexivity|]. split; [reflexivity|].
  unfold open_sessions, trace_of. cbn. case_decide; [congruence|reflexivity].
Qed.

(** X20: in the reference environment, [authenticate] with an email that
    is not registered resolves to [false], leaves the nodes of the store as
    they were and leaves no session open. *)
Theorem authenticate_unregistered
    (bcrypt_hash : string → value → string) (bcrypt_compare : string → value → bool)
    (sign : obj → string → string) (randomUuid : nat → string)
    (secret : string) (w : Reference.Store) (email password : string) :
  ¬ Reference.registered email w →
  let x := run (Reference.env bcrypt_hash bcrypt_compare sign randomUuid)
               (authenticate secret email password) w in
  result_of x = Ok JFalse ∧
  Reference.nodes (world_of x) = Reference.nodes w ∧
  open_sessions (trace_of x) = [].
Proof.
  unfold Reference.registered. intros Hfresh. apply not_true_is_false in Hfresh.
  cbv zeta. unfold authenticate. cbn.
  unfold Reference.match_user. cbn [Reference.nodes Reference.sessions].
  props. rewrite filter_no_match by done. cbn.
  split; [reflexivity|]. split; [reflexivity|].
  unfold open_sessions, trace_of. cbn. case_decide; [congruence|reflexivity].
Qed.

(** ** Rejections *)

(** X21: [authenticate] handles no error: a rejection of any of its calls
    ends the run, and the error is thrown as it was raised, never turned into
    [false]. *)
Theorem authenticate_rejection_thrown {W : Type} (h : handler W) (w : W)
    (secret email password : string) (c : call) (e : Error) :
  let x := run h (authenticate secret email password) w in
  Ev c (Rejected e) ∈ trace_of x →
  result_of x = Err (Raised e) ∧
  last (trace_of x) = Some (Ev c (Rejected e)).
Proof.
  unfold authenticate. paths h.
  all: unfold trace_of, result_of; cbn; intros Hin; in_trace.
  all: split; reflexivity.
Qed.

(** X22: the [catch] clause of [register] covers the whole [try] block, so
    an error of [jwt.sign] that carries the constraint-violation code is
    reported as the [ValidationError] for the email too, although the write
    transaction returned. *)
Theorem register_sign_rejected_with_constraint_code {W : Type} (h : handler W) (w : W)
    (secret rounds : string) (parseInt : string → value)
    (email plainPassword name : string)
    (payload : obj) (sec : string) (e : Error) (s : Session) :
  let x := run h (register secret rounds parseInt email plainPassword name) w in
  Ev (jwt_sign payload sec) (Rejected e) ∈ trace_of x →
  code e = constraint_code →
  Ev (close s) (Returned tt) ∈ trace_of x →
  result_of x =
    Err (ValidationError
           ("An account already exists with the email address " +:+ email)
           (<["email" := VStr "Email address already taken"]> ∅)) ∧
  count is_write (trace_of x) = 1.
Proof.
  unfold register, constraint_code. paths h.
  all: unfold trace_of, result_of; cbn; intros Hin Hcode Hclose; in_trace.
  all: try congruence.
  all: split; reflexivity.
Qed.

(** ** The further statements at the sample data *)

Lemma register_returns_safe_properties_witness :
  let x := Scripts.registering Scripts.all_well in
  ∃ (s : Session) (params : obj) (res : Result) (first : Row) (rest : list Row)
    (token : string),
    Ev (executeWrite s CreateUser params) (Returned res) ∈ trace_of x ∧
    records res = first :: rest ∧
    Ev (jwt_sign (userToClaims (delete "password" (properties (u first)))) "s3cr3t")
       (Returned token) ∈ trace_of x ∧
    Scripts.alice_with_token !! "password" = None ∧
    Scripts.alice_with_token !! "token" = Some (VStr token) ∧
    ∀ k : string, k ≠ "password" → k ≠ "token" →
      Scripts.alice_with_token !! k = properties (u first) !! k.
Proof.
  apply (register_returns_safe_properties (scripted Scripts.all_well) tt
           "s3cr3t" "10" (λ _, VNum 10) "a@x.com" "secret123" "Alice"
           Scripts.alice_with_token).
  reflexivity.
Defined.

Lemma authenticate_returns_safe_properties_witness :
  let x := Scripts.authenticating Scripts.all_well in
  ∃ (s : Session) (res : Result) (first : Row) (rest : list Row) (token : string),
    Ev (executeRead s MatchUserByEmail (<["email" := VStr "a@x.com"]> ∅)) (Returned res)
      ∈ trace_of x ∧
    records res = first :: rest ∧
    Ev (compare "secret123" (prop (properties (u first)) "password")) (Returned true)
      ∈ trace_of x ∧
    Ev (jwt_sign (userToClaims (delete "password" (properties (u first)))) "s3cr3t")
       (Returned token) ∈ trace_of x ∧
    Scripts.alice_with_token !! "password" = None ∧
    Scripts.alice_with_token !! "token" = Some (VStr token) ∧
    ∀ k : string, k ≠ "password" → k ≠ "token" →
      Scripts.alice_with_token !! k = properties (u first) !! k.
Proof.
  apply (authenticate_returns_safe_properties (scripted Scripts.all_well) tt
           "s3cr3t" "a@x.com" "secret123" Scripts.alice_with_token).
  reflexivity.
Defined.

Lemma token_payload_witness :
  let r := trace_of (Scripts.registering Scripts.all_well) in
  let payload := userToClaims (delete "password" (properties Scripts.stored_alice)) in
  ∃ (s : Session) (params : obj) (res : Result) (first : Row) (rest : list Row),
    Ev (executeWrite s CreateUser params) (Returned res) ∈ r ∧
    records res = first :: rest ∧
    "s3cr3t" = "s3cr3t" ∧
    dom payload = ({["sub"; "userId"; "name"]} : gset string) ∧
    payload !! "sub" = Some (prop (properties (u first)) "userId") ∧
    payload !! "userId" = Some (prop (properties (u first)) "userId") ∧
    payload !! "name" = Some (prop (properties (u first)) "name").
Proof.
  intros r payload.
  apply (proj1 (token_payload (scripted Scripts.all_well) tt
                  "s3cr3t" "10" (λ _, VNum 10) "a@x.com" "secret123" "Alice"
                  payload "s3cr3t" (Returned "header.payload.signature"))).
  cbn. occurs.
Defined.

Lemma transactions_on_own_session_witness :
  Ev driver_session (Returned 7) ∈ trace_of (Scripts.registering Scripts.all_well).
Proof.
  apply (transactions_on_own_session (scripted Scripts.all_well) tt
           "s3cr3t" "10" (λ _, VNum 10) "a@x.com" "secret123" "Alice"
           (Ev (close 7) (Returned tt)) 7).
  - reflexivity.
  - cbn. occurs.
Defined.

Lemma register_hash_rejected_witness :
  let x := Scripts.registering Scripts.hash_fails in
  result_of x = Err (Raised Scripts.hash_failure) ∧
  trace_of x = [ Ev (hash "secret123" (VNum 10)) (Rejected Scripts.hash_failure) ].
Proof.
  apply (register_hash_rejected (scripted Scripts.hash_fails) tt
           "s3cr3t" "10" (λ _, VNum 10) "a@x.com" "secret123" "Alice"
           "secret123" (VNum 10) Scripts.hash_failure).
  cbn. occurs.
Defined.

Lemma register_no_record_witness :
  let x := Scripts.registering Scripts.no_records in
  result_of x = Err (TypeError "Cannot read properties of undefined (reading 'get')") ∧
  count is_sign (trace_of x) = 0 ∧
  open_sessions (trace_of x) = [].
Proof.
  apply (register_no_record (scripted Scripts.no_records) tt
           "s3cr3t" "10" (λ _, VNum 10) "a@x.com" "secret123" "Alice"
           7 CreateUser
           (<["name" := VStr "Alice"]>
              (<["encrypted" := VStr "$2b$10$secret123"]>
                 (<["email" := VStr "a@x.com"]> ∅)))
           {| records := [] |}).
  - cbn. occurs.
  - reflexivity.
  - cbn. occurs.
Defined.

Lemma register_close_rejected_witness :
  result_of (Scripts.registering Scripts.close_fails) = Err (Raised Scripts.connection_lost).
Proof.
  apply (register_close_rejected (scripted Scripts.close_fails) tt
           "s3cr3t" "10" (λ _, VNum 10) "a@x.com" "secret123" "Alice"
           7 Scripts.connection_lost).
  cbn. occurs.
Defined.

Lemma authenticate_close_rejected_witness :
  let x := Scripts.authenticating Scripts.close_fails in
  result_of x = Err (Raised Scripts.connection_lost) ∧
  count is_compare (trace_of x) = 0 ∧
  count is_sign (trace_of x) = 0.
Proof.
  apply (authenticate_close_rejected (scripted Scripts.close_fails) tt
           "s3cr3t" "a@x.com" "secret123" 7 Scripts.connection_lost).
  cbn. occurs.
Defined.

Lemma authenticate_no_record_witness :
  ∃ ans : answer unit,
    trace_of (Scripts.authenticating Scripts.no_records) =
      [ Ev driver_session (Returned 7);
        Ev (executeRead 7 MatchUserByEmail (<["email" := VStr "a@x.com"]> ∅))
           (Returned {| records := [] |});
        Ev (close 7) ans ].
Proof.
  apply (authenticate_no_record (scripted Scripts.no_records) tt
           "s3cr3t" "a@x.com" "secret123"
           7 MatchUserByEmail (<["email" := VStr "a@x.com"]> ∅) {| records := [] |}).
  - cbn. occurs.
  - reflexivity.
Defined.

Lemma authenticate_signs_after_compare_witness :
  ∃ encrypted : value,
    Ev (compare "secret123" encrypted) (Returned true)
      ∈ trace_of (Scripts.authenticating Scripts.all_well).
Proof.
  apply (authenticate_signs_after_compare (scripted Scripts.all_well) tt
           "s3cr3t" "a@x.com" "secret123"
           (userToClaims (delete "password" (properties Scripts.stored_alice)))
           "s3cr3t" (Returned "header.payload.signature")).
  cbn. occurs.
Defined.

Lemma authenticate_compares_first_record_witness :
  let x := Scripts.authenticating Scripts.all_well in
  ∃ (s : Session) (res : Result) (first : Row) (rest : list Row),
    Ev (executeRead s MatchUserByEmail (<["email" := VStr "a@x.com"]> ∅)) (Returned res)
      ∈ trace_of x ∧
    records res = first :: rest ∧
    VStr "$2b$10$secret123" = prop (properties (u first)) "password" ∧
    (properties (u first) !! "password" = None → VStr "$2b$10$secret123" = VUndefined).
Proof.
  apply (authenticate_compares_first_record (scripted Scripts.all_well) tt
           "s3cr3t" "a@x.com" "secret123"
           "secret123" (VStr "$2b$10$secret123") (Returned true)).
  cbn. occurs.
Defined.

Lemma userToClaims_claimsToUser_witness :
  ∃ user' : obj,
    claimsToUser (<["iat" := VNum 1516239022]>
                    (userToClaims (properties Scripts.stored_alice)))
    = Ret user' ∧
    userToClaims user' = userToClaims (properties Scripts.stored_alice).
Proof.
  apply (userToClaims_claimsToUser (properties Scripts.stored_alice)).
  apply insert_subseteq. reflexivity.
Defined.

Lemma register_twice_witness :
  let x := run Sample.env
             (register "s3cr3t" "10" (λ _, VNum 10) "a@x.com" "hunter2" "Mallory")
             Sample.alice in
  result_of x =
    Err (ValidationError
           "An account already exists with the email address a@x.com"
           (<["email" := VStr "Email address already taken"]> ∅)) ∧
  Reference.nodes (world_of x) = Reference.nodes Sample.alice ∧
  open_sessions (trace_of x) = [].
Proof.
  apply (register_twice Sample.bcrypt_hash Sample.bcrypt_compare Sample.sign
           Sample.randomUuid "s3cr3t" "10" (λ _, VNum 10)
           Sample.alice "a@x.com" "hunter2" "Mallory").
  vm_compute. reflexivity.
Defined.

Lemma authenticate_unregistered_witness :
  let x := run Sample.env (authenticate "s3cr3t" "nouser@x.com" "x") Sample.alice in
  result_of x = Ok JFalse ∧
  Reference.nodes (world_of x) = Reference.nodes Sample.alice ∧
  open_sessions (trace_of x) = [].
Proof.
  apply (authenticate_unregistered Sample.bcrypt_hash Sample.bcrypt_compare Sample.sign
           Sample.randomUuid "s3cr3t" Sample.alice "nouser@x.com" "x").
  vm_compute. discriminate.
Defined.

Lemma authenticate_rejection_thrown_witness :
  let x := Scripts.authenticating Scripts.close_fails in
  result_of x = Err (Raised Scripts.connection_lost) ∧
  last (trace_of x) = Some (Ev (close 7) (Rejected Scripts.connection_lost)).
Proof.
  apply (authenticate_rejection_thrown (scripted Scripts.close_fails) tt
           "s3cr3t" "a@x.com" "secret123" (close 7) Scripts.connection_lost).
  cbn. occurs.
Defined.

Lemma register_sign_rejected_with_constraint_code_witness :
  let x := Scripts.registering Scripts.sign_fails in
  result_of x =
    Err (ValidationError
           "An account already exists with the email address a@x.com"
           (<["email" := VStr "Email address already taken"]> ∅)) ∧
  count is_write (trace_of x) = 1.
Proof.
  apply (register_sign_rejected_with_constraint_code (scripted Scripts.sign_fails) tt
           "s3cr3t" "10" (λ _, VNum 10) "a@x.com" "secret123" "Alice"
           (userToClaims (delete "password" (properties Scripts.stored_alice)))
           "s3cr3t" Scripts.sign_failure 7).
  - cbn. occurs.
  - reflexivity.
  - cbn. occurs.
Defined.

Lemma register_session_closed_last_witness :
  let t := trace_of (Scripts.registering Scripts.all_well) in
  (∃ ans : answer unit, last t = Some (Ev (close 7) ans)) ∧
  count is_close t = 1 ∧
  open_sessions t = [].
Proof.
  apply (register_session_closed_last (scripted Scripts.all_well) tt
           "s3cr3t" "10" (λ _, VNum 10) "a@x.com" "secret123" "Alice" 7).
  cbn. occurs.
Defined.

Lemma authenticate_closes_after_read_witness :
  let t := trace_of (Scripts.authenticating Scripts.all_well) in
  (∃ ans : answer unit, t !! 2 = Some (Ev (close 7) ans)) ∧
  count is_close t = 1 ∧
  open_sessions t = [].
Proof.
  apply (authenticate_closes_after_read (scripted Scripts.all_well) tt
           "s3cr3t" "a@x.com" "secret123"
           7 MatchUserByEmail (<["email" := VStr "a@x.com"]> ∅)
           {| records := [ {| u := Scripts.stored_alice |} ] |}).
  cbn. occurs.
Defined.
